(** * Polly-API client: a shallow embedding of [api/client.py]

    The module is a thin HTTP client: four functions, each of which builds
    a request, hands it to the [requests] library inside a [try] block and
    maps the response, or the exception, to a return value.

    The embedding keeps that shape.  Python values that travel through the
    client are a small JSON-like datatype, the [requests] library is
    modelled at its call boundary (keyword arguments in, a [Response]
    object or an exception out), and the functions themselves run in a
    state-and-exception monad over a [World] that records the module
    globals, the requests handed to the library and the lines printed. *)

From Stdlib Require Import String Ascii List ZArith Bool Lia DecimalString.
From Stdlib Require Import Decimal DecimalPos DecimalZ.
From ExtLib Require Import Structures.Monad Structures.MonadExc.
Import ListNotations.
Import MonadNotation.
Local Open Scope string_scope.
Local Open Scope Z_scope.
Local Open Scope monad_scope.

(** ** Python values *)

(** The values the client builds and receives: what [json.loads] can
    produce and what the payload dictionaries hold.  A dictionary is an
    association list in insertion order; a float is carried by its
    literal, the client never computes with one. *)
#[local] Set Warnings "-register-all".
Inductive PyVal : Type :=
| PNone
| PBool (b : bool)
| PInt (n : Z)
| PFloat (literal : string)
| PStr (s : string)
| PList (items : list PyVal)
| PDict (fields : list (string * PyVal)).

(** [type(v).__name__], as it shows in an [AttributeError] message. *)
Definition type_name (v : PyVal) : string :=
  match v with
  | PNone => "NoneType"
  | PBool _ => "bool"
  | PInt _ => "int"
  | PFloat _ => "float"
  | PStr _ => "str"
  | PList _ => "list"
  | PDict _ => "dict"
  end.

(** Lookup of a key in a dictionary's fields. *)
Fixpoint lookup (key : string) (fields : list (string * PyVal)) : option PyVal :=
  match fields with
  | [] => None
  | (k, v) :: rest => if String.eqb k key then Some v else lookup key rest
  end.

(** [str(n)] for a Python [int]: decimal digits, a leading minus sign for
    a negative number. *)
Definition str_of_int (n : Z) : string := NilZero.string_of_int (Z.to_int n).

(** ** The [requests] library at its call boundary *)

Inductive Method : Type := GET | POST.

(** One call of [requests.get] or [requests.post]: the method, the address
    and the keyword arguments [headers=], [json=] and [data=].  An omitted
    [headers=] is the empty list, an omitted [json=] or [data=] is [None]. *)
Record Request : Type := mkRequest {
  method : Method;
  url : string;
  headers : list (string * string);
  json : option PyVal;
  data : option PyVal
}.

(** The part of a [requests.Response] the client looks at.  [json_body]
    is what [response.json()] decodes from the body, [None] when the body
    is not JSON. *)
Record Response : Type := mkResponse {
  status_code : Z;
  reason : string;
  response_url : string;
  text : string;
  json_body : option PyVal
}.

(** Exceptions of [requests.exceptions] that [requests.get] and
    [requests.post] raise when no response is obtained. *)
Inductive TransportError : Type :=
| ConnectionError
| Timeout
| TooManyRedirects
| InvalidHeader
| OtherRequestError.

(** Exception classes that occur in the module.  Every class but
    [AttributeError] derives from [RequestException]; since requests 2.27
    that includes the [JSONDecodeError] raised by [response.json()]. *)
Inductive ExcClass : Type :=
| RequestException
| HTTPError
| Transport (kind : TransportError)
| JSONDecodeError
| AttributeError.

Definition issubclass (c base : ExcClass) : bool :=
  match base, c with
  | RequestException, AttributeError => false
  | RequestException, _ => true
  | HTTPError, HTTPError => true
  | JSONDecodeError, JSONDecodeError => true
  | AttributeError, AttributeError => true
  | Transport ConnectionError, Transport ConnectionError => true
  | Transport Timeout, Transport Timeout => true
  | Transport TooManyRedirects, Transport TooManyRedirects => true
  | Transport InvalidHeader, Transport InvalidHeader => true
  | Transport OtherRequestError, Transport OtherRequestError => true
  | _, _ => false
  end.

(** A raised exception: its class, [str(e)] and [e.response]. *)
Record Exn : Type := mkExn {
  exc_class : ExcClass;
  exc_str : string;
  exc_response : option Response
}.

Definition isinstance (e : Exn) (base : ExcClass) : bool :=
  issubclass (exc_class e) base.

(** What one library call comes to: a response of whatever status, or a
    failure before any response. *)
Inductive Outcome : Type :=
| Completed (r : Response)
| Failed (kind : TransportError) (msg : string).

(** ** The world the client runs in *)

(** Module-level bindings of [client.py]. *)
Record Globals : Type := mkGlobals {
  BASE_URL : string
}.

(** The bindings after the module body has run. *)
Definition module_globals : Globals :=
  {| BASE_URL := "http://localhost:8000" |}.

(** [network] is the remote service together with the transport: it
    answers a request in view of the requests made before it.  [sent] is
    the list of library calls made so far, oldest first, and [stdout] the
    lines printed so far. *)
Record World : Type := mkWorld {
  globals : Globals;
  network : list Request -> Request -> Outcome;
  sent : list Request;
  stdout : list string
}.

(** A Python computation: it returns or raises, and in both cases leaves
    a world behind. *)
Definition Py (A : Type) : Type := World -> (Exn + A) * World.

#[global] Instance Monad_Py : Monad Py := {|
  ret := fun A (a : A) (w : World) => (inr a, w);
  bind := fun A B (c : Py A) (k : A -> Py B) (w : World) =>
    match c w with
    | (inr a, w1) => k a w1
    | (inl e, w1) => (inl e, w1)
    end
|}.

#[global] Instance MonadExc_Py : MonadExc Exn Py := {|
  raise := fun A (e : Exn) (w : World) => (inl e, w);
  catch := fun A (body : Py A) (handler : Exn -> Py A) (w : World) =>
    match body w with
    | (inr a, w1) => (inr a, w1)
    | (inl e, w1) => handler e w1
    end
|}.

Definition load_BASE_URL : Py string :=
  fun w => (inr (BASE_URL (globals w)), w).

Definition print (line : string) : Py unit :=
  fun w => (inr tt, {| globals := globals w; network := network w;
                       sent := sent w; stdout := stdout w ++ [line] |}).

(** [requests.request(method, url, headers=..., json=..., data=...)].
    The model covers a call that returns a response or raises an
    exception of [requests.exceptions].  It counts the call, not the HTTP
    requests the library makes for it (see the section on redirects
    below), and it leaves out an exception of another class that gets
    through the library, such as the [UnicodeEncodeError] of a header
    value outside Latin-1. *)
Definition requests_request (m : Method) (address : string)
    (hdrs : list (string * string)) (js dt : option PyVal) : Py Response :=
  fun w =>
    let req := {| method := m; url := address; headers := hdrs;
                  json := js; data := dt |} in
    let w1 := {| globals := globals w; network := network w;
                 sent := sent w ++ [req]; stdout := stdout w |} in
    match network w (sent w) req with
    | Completed r => (inr r, w1)
    | Failed kind msg =>
        (inl {| exc_class := Transport kind; exc_str := msg;
                exc_response := None |}, w1)
    end.

Definition requests_post := requests_request POST.
Definition requests_get (address : string) : Py Response :=
  requests_request GET address [] None None.

(** The message [Response.raise_for_status] builds; empty when the status
    is no error. *)
Definition http_error_msg (r : Response) : string :=
  if (400 <=? status_code r) && (status_code r <? 500) then
    str_of_int (status_code r) ++ " Client Error: " ++ reason r
      ++ " for url: " ++ response_url r
  else if (500 <=? status_code r) && (status_code r <? 600) then
    str_of_int (status_code r) ++ " Server Error: " ++ reason r
      ++ " for url: " ++ response_url r
  else "".

(** [response.raise_for_status()]. *)
Definition raise_for_status (r : Response) : Py unit :=
  match http_error_msg r with
  | EmptyString => ret tt
  | msg => raise {| exc_class := HTTPError; exc_str := msg;
                    exc_response := Some r |}
  end.

(** [response.json()], for a body that decodes or that the decoder
    rejects as not JSON; a breakdown of the decoder itself (a
    [RecursionError] on a body nested too deep) is left out. *)
Definition response_json (r : Response) : Py PyVal :=
  match json_body r with
  | Some v => ret v
  | None => raise {| exc_class := JSONDecodeError;
                     exc_str := "Expecting value: line 1 column 1 (char 0)";
                     exc_response := None |}
  end.

(** [v.get(key)]: the method of a dictionary; any other value has no
    attribute [get]. *)
Definition py_get (v : PyVal) (key : string) : Py PyVal :=
  match v with
  | PDict fields =>
      ret (match lookup key fields with Some x => x | None => PNone end)
  | _ => raise {| exc_class := AttributeError;
                  exc_str := "'" ++ type_name v
                             ++ "' object has no attribute 'get'";
                  exc_response := None |}
  end.

(** [e.response.text]. *)
Definition exc_response_text (e : Exn) : Py string :=
  match exc_response e with
  | Some r => ret (text r)
  | None => raise {| exc_class := AttributeError;
                     exc_str := "'NoneType' object has no attribute 'text'";
                     exc_response := None |}
  end.

(** ** The four operations of [client.py] *)

Definition register_user (username password : string) : Py PyVal :=
  base <- load_BASE_URL ;;
  let url := base ++ "/register" in
  let payload := PDict [("username", PStr username);
                        ("password", PStr password)] in
  catch
    (response <- requests_post url [] (Some payload) None ;;
     raise_for_status response ;;
     response_json response)
    (fun e =>
       if isinstance e HTTPError then
         print ("HTTP error occurred during registration: " ++ exc_str e) ;;
         content <- exc_response_text e ;;
         print ("Response content: " ++ content) ;;
         ret PNone
       else if isinstance e RequestException then
         print ("An unexpected error occurred during registration: "
                ++ exc_str e) ;;
         ret PNone
       else raise e).

Definition login_user (username password : string) : Py PyVal :=
  base <- load_BASE_URL ;;
  let url := base ++ "/login" in
  let payload := PDict [("username", PStr username);
                        ("password", PStr password)] in
  catch
    (response <- requests_post url [] None (Some payload) ;;
     raise_for_status response ;;
     body <- response_json response ;;
     py_get body "access_token")
    (fun e =>
       if isinstance e HTTPError then
         print ("HTTP error occurred during login: " ++ exc_str e) ;;
         content <- exc_response_text e ;;
         print ("Response content: " ++ content) ;;
         ret PNone
       else if isinstance e RequestException then
         print ("An unexpected error occurred during login: " ++ exc_str e) ;;
         ret PNone
       else raise e).

Definition create_poll (question : string) (options : list string)
    (token : string) : Py PyVal :=
  base <- load_BASE_URL ;;
  let url := base ++ "/polls" in
  let headers := [("Authorization", "Bearer " ++ token)] in
  let payload := PDict [("question", PStr question);
                        ("options", PList (map PStr options))] in
  catch
    (response <- requests_post url headers (Some payload) None ;;
     raise_for_status response ;;
     response_json response)
    (fun e =>
       if isinstance e HTTPError then
         print ("HTTP error occurred during poll creation: " ++ exc_str e) ;;
         content <- exc_response_text e ;;
         print ("Response content: " ++ content) ;;
         ret PNone
       else if isinstance e RequestException then
         print ("An unexpected error occurred during poll creation: "
                ++ exc_str e) ;;
         ret PNone
       else raise e).

Definition get_polls (skip limit : Z) : Py PyVal :=
  base <- load_BASE_URL ;;
  let url := base ++ "/polls?skip=" ++ str_of_int skip
                  ++ "&limit=" ++ str_of_int limit in
  catch
    (response <- requests_get url ;;
     raise_for_status response ;;
     response_json response)
    (fun e =>
       if isinstance e HTTPError then
         print ("HTTP error occurred while fetching polls: " ++ exc_str e) ;;
         content <- exc_response_text e ;;
         print ("Response content: " ++ content) ;;
         ret PNone
       else if isinstance e RequestException then
         print ("An unexpected error occurred while fetching polls: "
                ++ exc_str e) ;;
         ret PNone
       else raise e).

(** The signature [get_polls(skip: int = 0, limit: int = 10)]: an argument
    the caller leaves out takes its default. *)
Definition get_polls_call (skip limit : option Z) : Py PyVal :=
  get_polls (match skip with Some s => s | None => 0 end)
            (match limit with Some l => l | None => 10 end).

(** ** Vocabulary of the specification *)

(** An invocation of one of the four operations with its arguments. *)
Inductive Call : Type :=
| Register (username password : string)
| Login (username password : string)
| CreatePoll (question : string) (options : list string) (token : string)
| GetPolls (skip limit : Z).

Definition invoke (c : Call) : Py PyVal :=
  match c with
  | Register username password => register_user username password
  | Login username password => login_user username password
  | CreatePoll question options token => create_poll question options token
  | GetPolls skip limit => get_polls skip limit
  end.

(** Two invocations of the same operation, whatever their arguments. *)
Definition same_operation (c1 c2 : Call) : bool :=
  match c1, c2 with
  | Register _ _, Register _ _ => true
  | Login _ _, Login _ _ => true
  | CreatePoll _ _ _, CreatePoll _ _ _ => true
  | GetPolls _ _, GetPolls _ _ => true
  | _, _ => false
  end.

(** The request of each operation as the interface table of the
    specification gives it: method, path under the base address, body and
    authentication.  Written from the table, not from the code; theorem
    [one_request_per_call] relates the two. *)
Definition spec_request (base : string) (c : Call) : Request :=
  match c with
  | Register username password =>
      {| method := POST; url := base ++ "/register"; headers := [];
         json := Some (PDict [("username", PStr username);
                              ("password", PStr password)]);
         data := None |}
  | Login username password =>
      {| method := POST; url := base ++ "/login"; headers := [];
         json := None;
         data := Some (PDict [("username", PStr username);
                              ("password", PStr password)]) |}
  | CreatePoll question options token =>
      {| method := POST; url := base ++ "/polls";
         headers := [("Authorization", "Bearer " ++ token)];
         json := Some (PDict [("question", PStr question);
                              ("options", PList (map PStr options))]);
         data := None |}
  | GetPolls skip limit =>
      {| method := GET;
         url := base ++ "/polls?skip=" ++ str_of_int skip
                     ++ "&limit=" ++ str_of_int limit;
         headers := []; json := None; data := None |}
  end.

(** What the network answers to the request of call [c] made in [w]. *)
Definition outcome (c : Call) (w : World) : Outcome :=
  network w (sent w) (spec_request (BASE_URL (globals w)) c).

(** How [requests] encodes the body, for the argument shapes this module
    passes: a non-empty dictionary under [data=] is sent as URL-encoded
    form fields, otherwise a value under [json=] is sent as JSON, and
    with neither there is no body. *)
Inductive Encoding : Type := NoBody | JsonBody | FormUrlEncoded | RawBody.

Definition body_encoding (req : Request) : Encoding :=
  match data req with
  | Some (PDict (_ :: _)) => FormUrlEncoded
  | Some (PStr (String _ _)) => RawBody
  | _ => match json req with
         | Some _ => JsonBody
         | None => NoBody
         end
  end.

(** The two failure kinds of the specification, and the status class it
    calls success. *)
Definition http_failure (o : Outcome) : Prop :=
  match o with
  | Completed r => 400 <= status_code r < 600
  | Failed _ _ => False
  end.

Definition transport_failure (o : Outcome) : Prop :=
  match o with
  | Completed _ => False
  | Failed _ _ => True
  end.

Definition status_2xx (r : Response) : Prop := 200 <= status_code r < 300.

(** The test [raise_for_status] makes, as one boolean. *)
Definition is_http_error (r : Response) : bool :=
  (400 <=? status_code r) && (status_code r <? 600).

(** A sequence of at most [n] records. *)
Definition at_most_records (n : nat) (v : PyVal) : bool :=
  match v with
  | PList items => (length items <=? n)%nat
  | _ => false
  end.

(** The world after one library call, and after some printed lines. *)
Definition issued (req : Request) (w : World) : World :=
  {| globals := globals w; network := network w;
     sent := sent w ++ [req]; stdout := stdout w |}.

Definition logged (lines : list string) (w : World) : World :=
  {| globals := globals w; network := network w;
     sent := sent w; stdout := stdout w ++ lines |}.

(** The error normalisation the four operations share, read off an
    outcome: the decoded body the [try] block reaches, if any, and the
    lines printed on the way.  [during] is the operation's wording in its
    messages. *)
Definition settle (during : string) (o : Outcome) : option PyVal * list string :=
  match o with
  | Failed _ msg =>
      (None, ["An unexpected error occurred " ++ during ++ ": " ++ msg])
  | Completed r =>
      if is_http_error r then
        (None, ["HTTP error occurred " ++ during ++ ": " ++ http_error_msg r;
                "Response content: " ++ text r])
      else
        match json_body r with
        | Some v => (Some v, [])
        | None =>
            (None, ["An unexpected error occurred " ++ during
                    ++ ": Expecting value: line 1 column 1 (char 0)"])
        end
  end.

Definition or_None (v : option PyVal) : PyVal :=
  match v with
  | Some x => x
  | None => PNone
  end.

(** ** Concrete worlds *)

(** A network that lets the n-th library call be answered by the n-th
    entry of a script, and refuses the connection once the script is used
    up. *)
Definition refuse (req : Request) : Outcome :=
  Failed ConnectionError ("Connection refused: " ++ url req).

Definition scripted (script : list (Request -> Outcome))
    : list Request -> Request -> Outcome :=
  fun history req => nth (length history) script refuse req.

Definition fresh_world (script : list (Request -> Outcome)) : World :=
  {| globals := module_globals; network := scripted script;
     sent := []; stdout := [] |}.

Definition quoted (s : string) : string :=
  String (ascii_of_nat 34) (s ++ String (ascii_of_nat 34) "").

(** JSON text of a value, for strings that need no escape; it gives the
    concrete responses below a body text that agrees with what they
    decode to. *)
Fixpoint dumps (v : PyVal) : string :=
  match v with
  | PNone => "null"
  | PBool true => "true"
  | PBool false => "false"
  | PInt n => str_of_int n
  | PFloat literal => literal
  | PStr s => quoted s
  | PList items =>
      "[" ++ (fix elements (l : list PyVal) : string :=
                match l with
                | [] => ""
                | x :: [] => dumps x
                | x :: rest => dumps x ++ ", " ++ elements rest
                end) items ++ "]"
  | PDict fields =>
      "{" ++ (fix members (l : list (string * PyVal)) : string :=
                match l with
                | [] => ""
                | (k, x) :: [] => quoted k ++ ": " ++ dumps x
                | (k, x) :: rest =>
                    quoted k ++ ": " ++ dumps x ++ ", " ++ members rest
                end) fields ++ "}"
  end.

(** A response with a JSON body, to whatever request it answers. *)
Definition respond_json (status : Z) (phrase : string) (body : PyVal)
    (req : Request) : Outcome :=
  Completed {| status_code := status; reason := phrase;
               response_url := url req; text := dumps body;
               json_body := Some body |}.

Definition alice_record : PyVal :=
  PDict [("id", PInt 1); ("username", PStr "alice")].

Definition poll_record (n : Z) : PyVal :=
  PDict [("id", PInt n); ("question", PStr "Best colour?");
         ("options", PList [PStr "Red"; PStr "Blue"])].

Definition six_polls : PyVal :=
  PList (map poll_record [1; 2; 3; 4; 5; 6]).

Definition token_body : PyVal :=
  PDict [("access_token", PStr "tok123"); ("token_type", PStr "bearer")].

Definition conflict_body : PyVal :=
  PDict [("detail", PStr "Username already registered")].

(** ** The self-test script *)

(** The block under [if __name__ == "__main__":] calls the four
    operations in turn and prints what comes back.  It leans on builtins
    whose behaviour lies outside the module: whether a float is zero,
    [repr] of a float, list or dictionary, and the characters of a
    string.  They are taken as given. *)
Record Builtins : Type := mkBuiltins {
  float_is_zero : string -> bool;
  repr : PyVal -> string;
  characters : string -> list string
}.

(** [bool(v)], the test of [if v:]. *)
Definition truthy (B : Builtins) (v : PyVal) : bool :=
  match v with
  | PNone => false
  | PBool b => b
  | PInt n => negb (n =? 0)
  | PFloat literal => negb (float_is_zero B literal)
  | PStr s => negb (String.eqb s "")
  | PList items => match items with [] => false | _ :: _ => true end
  | PDict fields => match fields with [] => false | _ :: _ => true end
  end.

(** [str(v)], as [print(v)] and an f-string field render a value. *)
Definition py_str (B : Builtins) (v : PyVal) : string :=
  match v with
  | PNone => "None"
  | PBool true => "True"
  | PBool false => "False"
  | PInt n => str_of_int n
  | PStr s => s
  | PFloat _ | PList _ | PDict _ => repr B v
  end.

(** What can end the script early: an exception that left one of the
    four operations, or the [TypeError] of a [for] over a value that is
    not iterable. *)
Inductive Uncaught : Type :=
| FromClient (e : Exn)
| TypeError (msg : string).

Definition Script (A : Type) : Type := World -> (Uncaught + A) * World.

#[global] Instance Monad_Script : Monad Script := {|
  ret := fun A (a : A) (w : World) => (inr a, w);
  bind := fun A B (c : Script A) (k : A -> Script B) (w : World) =>
    match c w with
    | (inr a, w1) => k a w1
    | (inl e, w1) => (inl e, w1)
    end
|}.

(** A call of one of the module's functions from the script. *)
Definition client {A : Type} (c : Py A) : Script A :=
  fun w =>
    match c w with
    | (inr a, w1) => (inr a, w1)
    | (inl e, w1) => (inl (FromClient e), w1)
    end.

Definition say (line : string) : Script unit := client (print line).

(** The items a [for] loop draws from a value: the elements of a list,
    the keys of a dictionary, the characters of a string. *)
Definition iterate (B : Builtins) (v : PyVal) : Script (list PyVal) :=
  match v with
  | PList items => ret items
  | PDict fields => ret (map (fun kv => PStr (fst kv)) fields)
  | PStr s => ret (map PStr (characters B s))
  | _ => fun w => (inl (TypeError ("'" ++ type_name v
                                    ++ "' object is not iterable")), w)
  end.

Fixpoint for_each {A : Type} (items : list A) (body : A -> Script unit)
    : Script unit :=
  match items with
  | [] => ret tt
  | x :: rest => body x ;; for_each rest body
  end.

Definition nl : string := String (ascii_of_nat 10) "".

Definition main (B : Builtins) : Script unit :=
  say "--- Testing User Registration ---" ;;
  let test_username := "testuser123" in
  let test_password := "testpassword123" in
  say ("Attempting to register user: " ++ test_username) ;;
  registered_user <- client (register_user test_username test_password) ;;
  (if truthy B registered_user then
     say "User registered successfully:" ;;
     say (py_str B registered_user)
   else
     say "User registration failed.") ;;
  say (nl ++ "Attempting to register existing user: " ++ test_username
          ++ " (should fail)") ;;
  registered_user_again <-
    client (register_user test_username test_password) ;;
  (if truthy B registered_user_again then
     say "User registered successfully (unexpected):" ;;
     say (py_str B registered_user_again)
   else
     say "User registration failed as expected (username likely taken).") ;;
  say (nl ++ "--- Testing User Login ---") ;;
  say ("Attempting to log in user: " ++ test_username) ;;
  access_token <- client (login_user test_username test_password) ;;
  (if truthy B access_token then
     say "Login successful. Access Token:" ;;
     say (py_str B access_token)
   else
     say "Login failed.") ;;
  say (nl ++ "--- Testing Poll Creation ---") ;;
  (if truthy B access_token then
     say "Attempting to create a poll with authentication..." ;;
     new_poll <- client (create_poll "What is your favorite color?"
                           ["Red"; "Blue"; "Green"]
                           (py_str B access_token)) ;;
     (if truthy B new_poll then
        say "Poll created successfully:" ;;
        say (py_str B new_poll)
      else
        say "Poll creation failed.") ;;
     say (nl ++ "Attempting to create another poll...") ;;
     new_poll_2 <- client (create_poll "Best programming language?"
                             ["Python"; "JavaScript"; "Java"]
                             (py_str B access_token)) ;;
     (if truthy B new_poll_2 then
        say "Second poll created successfully:" ;;
        say (py_str B new_poll_2)
      else
        say "Second poll creation failed.")
   else
     say "Skipping poll creation test: No access token available.") ;;
  say (nl ++ "Attempting to create a poll without authentication "
          ++ "(should fail)...") ;;
  unauthorized_poll <- client (create_poll "This should fail"
                                 ["Option A"; "Option B"]
                                 "invalid_token") ;;
  (if truthy B unauthorized_poll then
     say "Unauthorized poll creation succeeded (unexpected):" ;;
     say (py_str B unauthorized_poll)
   else
     say "Unauthorized poll creation failed as expected.") ;;
  say (nl ++ "--- Testing Fetching Polls ---") ;;
  say "Attempting to fetch polls (skip=0, limit=5)..." ;;
  polls <- client (get_polls_call (Some 0) (Some 5)) ;;
  if truthy B polls then
    say "Polls fetched successfully:" ;;
    items <- iterate B polls ;;
    for_each items (fun poll => say (py_str B poll))
  else
    say "Failed to fetch polls.".

(** Builtins for concrete runs: JSON text stands in for [repr], a float
    literal is zero when it has no digit from 1 to 9 before an exponent,
    and a string of ASCII characters is split into its bytes. *)
Fixpoint split_chars (s : string) : list string :=
  match s with
  | EmptyString => []
  | String c rest => String c "" :: split_chars rest
  end.

Fixpoint mantissa_zero (s : string) : bool :=
  match s with
  | EmptyString => true
  | String c rest =>
      if (Ascii.eqb c "e" || Ascii.eqb c "E")%bool then true
      else if (Nat.leb 49 (nat_of_ascii c) && Nat.leb (nat_of_ascii c) 57)%bool
           then false
           else mantissa_zero rest
  end.

Definition sample_builtins : Builtins :=
  {| float_is_zero := mantissa_zero; repr := dumps;
     characters := split_chars |}.

(** The calls the script makes, by name. *)
Definition test_register : Call := Register "testuser123" "testpassword123".
Definition test_login : Call := Login "testuser123" "testpassword123".
Definition first_poll (token : string) : Call :=
  CreatePoll "What is your favorite color?" ["Red"; "Blue"; "Green"] token.
Definition second_poll (token : string) : Call :=
  CreatePoll "Best programming language?" ["Python"; "JavaScript"; "Java"]
             token.
Definition unauthorized_poll : Call :=
  CreatePoll "This should fail" ["Option A"; "Option B"] "invalid_token".
Definition listing : Call := GetPolls 0 5.

(** The calls of one run of the script, given what [login_user] came
    to: an exception ends the run, a token that tests true adds the two
    authenticated polls. *)
Definition script_calls (B : Builtins) (came : Exn + PyVal) : list Call :=
  [test_register; test_register; test_login]
  ++ match came with
     | inl _ => []
     | inr token =>
         (if truthy B token
          then [first_poll (py_str B token); second_poll (py_str B token)]
          else [])
         ++ [unauthorized_poll; listing]
     end.

(** How the last block of the script ends, given the value of [polls]. *)
Definition listing_result (B : Builtins) (polls : PyVal) : Uncaught + unit :=
  if truthy B polls then
    match polls with
    | PList _ | PDict _ | PStr _ => inr tt
    | _ => inl (TypeError ("'" ++ type_name polls
                            ++ "' object is not iterable"))
    end
  else inr tt.

(** The world [w] after the library calls [reqs], printing aside; two
    worlds look the same to the module when they agree on everything but
    the printed lines. *)
Definition advance (reqs : list Request) (w : World) : World :=
  {| globals := globals w; network := network w;
     sent := sent w ++ reqs; stdout := stdout w |}.

Definition same_view (w1 w2 : World) : Prop :=
  globals w1 = globals w2 /\ network w1 = network w2 /\ sent w1 = sent w2.

(** From any world that looks like [w0], [c] comes to [res] and leaves a
    world that looks like [w0] after the calls [reqs]. *)
Definition tracks {A : Type} (c : Script A) (w0 : World)
    (res : Uncaught + A) (reqs : list Request) : Prop :=
  forall w : World,
    same_view w w0 ->
    fst (c w) = res /\ same_view (snd (c w)) (advance reqs w0).

Definition lift_exn {A : Type} (r : Exn + A) : Uncaught + A :=
  match r with
  | inl e => inl (FromClient e)
  | inr a => inr a
  end.

(** Whether a character occurs in a string. *)
Fixpoint occurs (c : ascii) (s : string) : bool :=
  match s with
  | EmptyString => false
  | String x rest => (Ascii.eqb x c || occurs c rest)%bool
  end.

(** ** Beneath the call boundary: redirects *)










(** ** Wording of the diagnostics *)

(** The words by which each operation names itself in the lines it
    prints from its [except] clauses. *)
Definition during (c : Call) : string :=
  match c with
  | Register _ _ => "during registration"
  | Login _ _ => "during login"
  | CreatePoll _ _ _ => "during poll creation"
  | GetPolls _ _ => "while fetching polls"
  end.

(** ** Running the library calls *)

Section Runs.

Variable w : World.

Lemma append_nonempty (s t : string) (c : ascii) :
  s ++ String c t <> "".
Proof. destruct s; discriminate. Qed.

Lemma is_http_error_spec (r : Response) :
  is_http_error r = true <-> 400 <= status_code r < 600.
Proof. unfold is_http_error. lia. Qed.

Lemma status_2xx_no_error (r : Response) :
  status_2xx r -> is_http_error r = false.
Proof. unfold status_2xx, is_http_error. lia. Qed.

Lemma http_error_msg_empty (r : Response) :
  is_http_error r = false -> http_error_msg r = "".
Proof.
  unfold is_http_error, http_error_msg. intros H.
  destruct (400 <=? status_code r) eqn:Hlo;
    destruct (status_code r <? 500) eqn:H5; cbn [andb];
    destruct (500 <=? status_code r) eqn:H5';
    destruct (status_code r <? 600) eqn:H6; cbn [andb] in *;
    try reflexivity; try discriminate; lia.
Qed.

Lemma http_error_msg_nonempty (r : Response) :
  is_http_error r = true -> http_error_msg r <> "".
Proof.
  unfold is_http_error, http_error_msg. intros H.
  destruct (400 <=? status_code r) eqn:Hlo;
    destruct (status_code r <? 500) eqn:H5; cbn [andb];
    destruct (500 <=? status_code r) eqn:H5';
    destruct (status_code r <? 600) eqn:H6; cbn [andb] in *;
    try discriminate; try lia;
    destruct (str_of_int (status_code r)); discriminate.
Qed.

Lemma raise_for_status_run (r : Response) :
  raise_for_status r w =
  if is_http_error r then
    (inl {| exc_class := HTTPError; exc_str := http_error_msg r;
            exc_response := Some r |}, w)
  else (inr tt, w).
Proof.
  unfold raise_for_status.
  destruct (is_http_error r) eqn:E.
  - pose proof (http_error_msg_nonempty r E) as N.
    destruct (http_error_msg r); [congruence | reflexivity].
  - rewrite (http_error_msg_empty r E). reflexivity.
Qed.

Lemma requests_request_run m address hdrs js dt :
  let req := {| method := m; url := address; headers := hdrs;
                json := js; data := dt |} in
  requests_request m address hdrs js dt w =
  (match network w (sent w) req with
   | Completed r => inr r
   | Failed kind msg => inl {| exc_class := Transport kind; exc_str := msg;
                               exc_response := None |}
   end, issued req w).
Proof.
  unfold requests_request, issued. cbv zeta.
  destruct (network w (sent w) _); reflexivity.
Qed.

End Runs.

(** ** Each operation, run on an arbitrary world *)

Lemma logged_nil (w : World) : logged [] w = w.
Proof. destruct w; unfold logged; cbn. rewrite app_nil_r. reflexivity. Qed.

Lemma print_twice (a b : string) (w : World) :
  snd (print b (snd (print a w))) = logged [a; b] w.
Proof. unfold print, logged; cbn. rewrite <- app_assoc. reflexivity. Qed.

Ltac run_client :=
  cbv beta iota zeta delta
    [bind ret raise catch Monad_Py MonadExc_Py load_BASE_URL requests_post
     requests_get spec_request outcome invoke];
  rewrite requests_request_run; cbv zeta;
  let r := fresh "r" in
  let kind := fresh "kind" in
  let msg := fresh "msg" in
  let v := fresh "v" in
  match goal with
  | |- context [network ?w ?h ?q] => destruct (network w h q) as [r|kind msg]
  end;
  [ rewrite raise_for_status_run; unfold settle;
    destruct (is_http_error r) eqn:Herr;
    [ | unfold response_json; destruct (json_body r) as [v|] eqn:Hjson ]
  | unfold settle ].

Lemma register_user_run (username password : string) (w : World) :
  let c := Register username password in
  register_user username password w =
  (inr (or_None (fst (settle "during registration" (outcome c w)))),
   logged (snd (settle "during registration" (outcome c w)))
          (issued (spec_request (BASE_URL (globals w)) c) w)).
Proof.
  intros c. subst c. unfold register_user. run_client.
  - cbn. rewrite <- app_assoc. reflexivity.
  - cbn. rewrite logged_nil. reflexivity.
  - reflexivity.
  - reflexivity.
Qed.

Lemma py_get_run (v : PyVal) (key : string) (w : World) :
  py_get v key w = (fst (py_get v key w), w).
Proof. destruct v; reflexivity. Qed.

Lemma py_get_world (v : PyVal) (key : string) (w1 w2 : World) :
  fst (py_get v key w1) = fst (py_get v key w2).
Proof. destruct v; reflexivity. Qed.

Lemma login_user_run (username password : string) (w : World) :
  let c := Login username password in
  login_user username password w =
  (match fst (settle "during login" (outcome c w)) with
   | Some body => fst (py_get body "access_token" w)
   | None => inr PNone
   end,
   logged (snd (settle "during login" (outcome c w)))
          (issued (spec_request (BASE_URL (globals w)) c) w)).
Proof.
  intros c. subst c. unfold login_user. run_client.
  - cbn. rewrite <- app_assoc. reflexivity.
  - cbn. rewrite logged_nil. destruct v; reflexivity.
  - reflexivity.
  - reflexivity.
Qed.

Lemma create_poll_run (question : string) (options : list string)
    (token : string) (w : World) :
  let c := CreatePoll question options token in
  create_poll question options token w =
  (inr (or_None (fst (settle "during poll creation" (outcome c w)))),
   logged (snd (settle "during poll creation" (outcome c w)))
          (issued (spec_request (BASE_URL (globals w)) c) w)).
Proof.
  intros c. subst c. unfold create_poll. run_client.
  - cbn. rewrite <- app_assoc. reflexivity.
  - cbn. rewrite logged_nil. reflexivity.
  - reflexivity.
  - reflexivity.
Qed.

Lemma get_polls_run (skip limit : Z) (w : World) :
  let c := GetPolls skip limit in
  get_polls skip limit w =
  (inr (or_None (fst (settle "while fetching polls" (outcome c w)))),
   logged (snd (settle "while fetching polls" (outcome c w)))
          (issued (spec_request (BASE_URL (globals w)) c) w)).
Proof.
  intros c. subst c. unfold get_polls. run_client.
  - cbn. rewrite <- app_assoc. reflexivity.
  - cbn. rewrite logged_nil. reflexivity.
  - reflexivity.
  - reflexivity.
Qed.

(** The world any of the four operations leaves: one request issued,
    then the lines of its error handling, in the operation's wording. *)
Lemma invoke_world (c : Call) (w : World) :
  exists during,
    snd (invoke c w) =
    logged (snd (settle during (outcome c w)))
           (issued (spec_request (BASE_URL (globals w)) c) w).
Proof.
  destruct c; cbn [invoke].
  - exists "during registration". rewrite register_user_run. reflexivity.
  - exists "during login". rewrite login_user_run. reflexivity.
  - exists "during poll creation". rewrite create_poll_run. reflexivity.
  - exists "while fetching polls". rewrite get_polls_run. reflexivity.
Qed.

Lemma settle_failure (during : string) (o : Outcome) :
  http_failure o \/ transport_failure o -> fst (settle during o) = None.
Proof.
  destruct o as [r|kind msg]; cbn [http_failure transport_failure settle].
  - intros [H|[]]. apply is_http_error_spec in H. rewrite H. reflexivity.
  - reflexivity.
Qed.

Lemma settle_success (during : string) (r : Response) (v : PyVal) :
  status_2xx r -> json_body r = Some v ->
  settle during (Completed r) = (Some v, []).
Proof.
  intros H2 Hj. cbn [settle].
  rewrite (status_2xx_no_error r H2), Hj. reflexivity.
Qed.

(** ** Failures (C1) *)

(** C1 as stated fails.  A request that completes with status 300 is a
    non-2xx completion, yet [raise_for_status] lets it pass and
    [register_user] returns the decoded body instead of [None]. *)
Lemma register_user_status_300_returns_body :
  let c := Register "alice" "secret" in
  let w := fresh_world [respond_json 300 "Multiple Choices" alice_record] in
  (exists r, outcome c w = Completed r /\ ~ status_2xx r)
  /\ fst (invoke c w) = inr alice_record
  /\ fst (invoke c w) <> inr PNone.
Proof.
  cbv zeta. split; [ | split ].
  - eexists. split; [ reflexivity | ]. unfold status_2xx. cbn. lia.
  - vm_compute. reflexivity.
  - vm_compute. discriminate.
Qed.

(** C1, amended: for each of the four operations, when the request
    completes with a status from 400 to 599 or fails before completion,
    the operation returns [None] and raises nothing; the two kinds of
    failure give the same return value. *)
Theorem failures_return_None :
  (forall (c : Call) (w : World),
      http_failure (outcome c w) \/ transport_failure (outcome c w) ->
      fst (invoke c w) = inr PNone)
  /\ (forall (c c' : Call) (w w' : World),
         http_failure (outcome c w) -> transport_failure (outcome c' w') ->
         fst (invoke c w) = fst (invoke c' w')).
Proof.
  assert (A : forall c w,
             http_failure (outcome c w) \/ transport_failure (outcome c w) ->
             fst (invoke c w) = inr PNone).
  { intros c w H. destruct c; cbn [invoke].
    - rewrite register_user_run. cbv zeta. cbn [fst].
      rewrite settle_failure by exact H. reflexivity.
    - rewrite login_user_run. cbv zeta. cbn [fst].
      rewrite settle_failure by exact H. reflexivity.
    - rewrite create_poll_run. cbv zeta. cbn [fst].
      rewrite settle_failure by exact H. reflexivity.
    - rewrite get_polls_run. cbv zeta. cbn [fst].
      rewrite settle_failure by exact H. reflexivity. }
  split; [ exact A | ].
  intros c c' w w' Hh Ht.
  rewrite (A c w) by (left; exact Hh).
  rewrite (A c' w') by (right; exact Ht).
  reflexivity.
Qed.

Lemma failures_return_None_witness :
  let c := Register "alice" "secret" in
  let c' := GetPolls 0 5 in
  let w := fresh_world [respond_json 400 "Bad Request" conflict_body] in
  let w' := fresh_world [] in
  http_failure (outcome c w) /\ transport_failure (outcome c' w')
  /\ fst (invoke c w) = inr PNone
  /\ fst (invoke c' w') = inr PNone
  /\ fst (invoke c w) = fst (invoke c' w').
Proof.
  cbv zeta.
  assert (Hh : http_failure
                 (outcome (Register "alice" "secret")
                    (fresh_world
                       [respond_json 400 "Bad Request" conflict_body]))).
  { cbn. lia. }
  assert (Ht : transport_failure (outcome (GetPolls 0 5) (fresh_world []))).
  { cbn. exact I. }
  split; [ exact Hh | ]. split; [ exact Ht | ].
  split; [ | split ].
  - apply (proj1 failures_return_None). left. exact Hh.
  - apply (proj1 failures_return_None). right. exact Ht.
  - apply (proj2 failures_return_None); assumption.
Defined.

(** ** The request and the result of each operation (C2, C4, C5, C6) *)

(** C4: [register_user] makes one POST to [/register] under the base
    address, with the JSON body [{username, password}] and no header of
    its own, and on a 2xx response with a JSON body returns the decoded
    body. *)
Theorem register_user_posts_json (username password : string) (w : World) :
  let req :=
    {| method := POST; url := BASE_URL (globals w) ++ "/register";
       headers := [];
       json := Some (PDict [("username", PStr username);
                            ("password", PStr password)]);
       data := None |} in
  sent (snd (register_user username password w)) = (sent w ++ [req])%list
  /\ body_encoding req = JsonBody
  /\ (forall (r : Response) (record : PyVal),
         network w (sent w) req = Completed r ->
         status_2xx r -> json_body r = Some record ->
         fst (register_user username password w) = inr record).
Proof.
  cbv zeta. rewrite register_user_run. cbv zeta. cbn [fst snd].
  split; [ reflexivity | split; [ reflexivity | ] ].
  intros r record Hnet H2 Hj.
  unfold outcome. cbn [spec_request]. rewrite Hnet.
  rewrite (settle_success _ r record H2 Hj). reflexivity.
Qed.

Lemma register_user_posts_json_witness :
  let w := fresh_world [respond_json 201 "Created" alice_record] in
  fst (register_user "alice" "secret" w) = inr alice_record.
Proof.
  cbv zeta.
  eapply (proj2 (proj2 (register_user_posts_json "alice" "secret" _))).
  - reflexivity.
  - unfold status_2xx. cbn. lia.
  - reflexivity.
Defined.

Lemma lookup_member (key : string) (v : PyVal)
    (fields : list (string * PyVal)) :
  NoDup (map fst fields) -> In (key, v) fields ->
  lookup key fields = Some v.
Proof.
  induction fields as [|[k x] rest IH]; intros Hnd Hin.
  - destruct Hin.
  - cbn [map fst] in Hnd. apply NoDup_cons_iff in Hnd as [Hk Hnd].
    cbn [lookup]. destruct Hin as [E|Hin].
    + injection E as -> ->. rewrite String.eqb_refl. reflexivity.
    + destruct (String.eqb_spec k key) as [->|_].
      * exfalso. apply Hk.
        exact (in_map fst rest (key, v) Hin).
      * exact (IH Hnd Hin).
Qed.

(** C2: [login_user] makes one POST to [/login] with the credentials
    under [data=], which the library sends as URL-encoded form fields,
    and with no [json=] body; on a 2xx response whose JSON body is an
    object it returns the value that object gives for the key
    [access_token], wherever among the fields (of distinct keys, as a
    decoded object has them) the key stands. *)
Theorem login_user_form_fields_token (username password : string) (w : World) :
  let req :=
    {| method := POST; url := BASE_URL (globals w) ++ "/login";
       headers := []; json := None;
       data := Some (PDict [("username", PStr username);
                            ("password", PStr password)]) |} in
  sent (snd (login_user username password w)) = (sent w ++ [req])%list
  /\ body_encoding req = FormUrlEncoded
  /\ (forall (r : Response) (fields : list (string * PyVal)) (token : PyVal),
         network w (sent w) req = Completed r ->
         status_2xx r -> json_body r = Some (PDict fields) ->
         NoDup (map fst fields) ->
         In ("access_token", token) fields ->
         fst (login_user username password w) = inr token).
Proof.
  cbv zeta. rewrite login_user_run. cbv zeta. cbn [fst snd].
  split; [ reflexivity | split; [ reflexivity | ] ].
  intros r fields token Hnet H2 Hj Hnd Hin.
  unfold outcome. cbn [spec_request]. rewrite Hnet.
  rewrite (settle_success _ r _ H2 Hj). cbn.
  rewrite (lookup_member _ _ _ Hnd Hin). reflexivity.
Qed.

Lemma login_user_form_fields_token_witness :
  let body := PDict [("token_type", PStr "bearer");
                     ("expires_in", PInt 3600);
                     ("access_token", PStr "tok123")] in
  let w := fresh_world [respond_json 200 "OK" body] in
  fst (login_user "alice" "secret" w) = inr (PStr "tok123").
Proof.
  cbv zeta.
  eapply (proj2 (proj2 (login_user_form_fields_token "alice" "secret" _))).
  - reflexivity.
  - unfold status_2xx. cbn. lia.
  - reflexivity.
  - cbn. repeat constructor; cbn; intuition discriminate.
  - cbn. right. right. left. reflexivity.
Defined.

(** C5: [create_poll] makes one POST to [/polls] with the JSON body
    [{question, options}] and the header [Authorization: Bearer <token>],
    and on a 2xx response with a JSON body returns the decoded body. *)
Theorem create_poll_posts_json_bearer (question : string)
    (options : list string) (token : string) (w : World) :
  let req :=
    {| method := POST; url := BASE_URL (globals w) ++ "/polls";
       headers := [("Authorization", "Bearer " ++ token)];
       json := Some (PDict [("question", PStr question);
                            ("options", PList (map PStr options))]);
       data := None |} in
  sent (snd (create_poll question options token w)) = (sent w ++ [req])%list
  /\ body_encoding req = JsonBody
  /\ (forall (r : Response) (record : PyVal),
         network w (sent w) req = Completed r ->
         status_2xx r -> json_body r = Some record ->
         fst (create_poll question options token w) = inr record).
Proof.
  cbv zeta. rewrite create_poll_run. cbv zeta. cbn [fst snd].
  split; [ reflexivity | split; [ reflexivity | ] ].
  intros r record Hnet H2 Hj.
  unfold outcome. cbn [spec_request]. rewrite Hnet.
  rewrite (settle_success _ r record H2 Hj). reflexivity.
Qed.

Lemma create_poll_posts_json_bearer_witness :
  let w := fresh_world [respond_json 200 "OK" (poll_record 7)] in
  fst (create_poll "Best colour?" ["Red"; "Blue"] "tok123" w)
  = inr (poll_record 7).
Proof.
  cbv zeta.
  eapply (proj2 (proj2 (create_poll_posts_json_bearer _ _ _ _))).
  - reflexivity.
  - unfold status_2xx. cbn. lia.
  - reflexivity.
Defined.

(** C6: [get_polls] makes one GET with no body and no header of its own,
    to [/polls?skip=<skip>&limit=<limit>] under the base address with
    both numbers in decimal, and on a 2xx response with a JSON body
    returns the decoded body. *)
Theorem get_polls_query_parameters (skip limit : Z) (w : World) :
  let req :=
    {| method := GET;
       url := BASE_URL (globals w) ++ "/polls?skip=" ++ str_of_int skip
                ++ "&limit=" ++ str_of_int limit;
       headers := []; json := None; data := None |} in
  sent (snd (get_polls skip limit w)) = (sent w ++ [req])%list
  /\ body_encoding req = NoBody
  /\ (forall (r : Response) (body : PyVal),
         network w (sent w) req = Completed r ->
         status_2xx r -> json_body r = Some body ->
         fst (get_polls skip limit w) = inr body).
Proof.
  cbv zeta. rewrite get_polls_run. cbv zeta. cbn [fst snd].
  split; [ reflexivity | split; [ reflexivity | ] ].
  intros r body Hnet H2 Hj.
  unfold outcome. cbn [spec_request]. rewrite Hnet.
  rewrite (settle_success _ r body H2 Hj). reflexivity.
Qed.

Lemma get_polls_query_parameters_witness :
  let w := fresh_world [respond_json 200 "OK" (PList [poll_record 1])] in
  url (last (sent (snd (get_polls 20 10 w))) (spec_request "" (GetPolls 0 0)))
  = "http://localhost:8000/polls?skip=20&limit=10"
  /\ fst (get_polls 20 10 w) = inr (PList [poll_record 1]).
Proof.
  cbv zeta. split.
  - rewrite (proj1 (get_polls_query_parameters 20 10 _)). reflexivity.
  - eapply (proj2 (proj2 (get_polls_query_parameters 20 10 _))).
    + reflexivity.
    + unfold status_2xx. cbn. lia.
    + reflexivity.
Defined.

(** ** Page size (C3, C10) *)

(** C3 as stated fails.  The client hands back whatever the service
    sends: when the service answers [get_polls(skip=0, limit=5)] with six
    records, the call succeeds and returns all six. *)
Lemma get_polls_limit_5_returns_six :
  let w := fresh_world [respond_json 200 "OK" six_polls] in
  exists (r : Response) (items : list PyVal),
    outcome (GetPolls 0 5) w = Completed r /\ status_2xx r
    /\ fst (get_polls 0 5 w) = inr (PList items)
    /\ (5 < length items)%nat
    /\ at_most_records 5 (PList items) = false.
Proof.
  cbv zeta. eexists. eexists.
  split; [ reflexivity | ]. split; [ unfold status_2xx; cbn; lia | ].
  split; [ vm_compute; reflexivity | ].
  split; [ cbn; lia | reflexivity ].
Qed.

(** C3, amended: a successful call [get_polls(skip=0, limit=5)] returns
    the decoded response body as it is; so the result is a sequence of at
    most 5 records whenever the body the service sent is one. *)
Theorem get_polls_returns_body_as_sent (w : World) (r : Response)
    (body : PyVal) :
  outcome (GetPolls 0 5) w = Completed r ->
  status_2xx r -> json_body r = Some body ->
  fst (get_polls 0 5 w) = inr body
  /\ (at_most_records 5 body = true ->
      exists items : list PyVal,
        fst (get_polls 0 5 w) = inr (PList items)
        /\ (length items <= 5)%nat).
Proof.
  intros Hnet H2 Hj.
  assert (R : fst (get_polls 0 5 w) = inr body).
  { rewrite get_polls_run. cbv zeta. cbn [fst]. rewrite Hnet.
    rewrite (settle_success _ r body H2 Hj). reflexivity. }
  split; [ exact R | ].
  intros Hle. destruct body; try discriminate.
  exists items. split; [ exact R | ].
  cbn in Hle. apply Nat.leb_le. exact Hle.
Qed.

Lemma get_polls_returns_body_as_sent_witness :
  let body := PList [poll_record 1; poll_record 2] in
  let w := fresh_world [respond_json 200 "OK" body] in
  fst (get_polls 0 5 w) = inr body
  /\ exists items : list PyVal,
       fst (get_polls 0 5 w) = inr (PList items) /\ (length items <= 5)%nat.
Proof.
  cbv zeta.
  destruct (get_polls_returns_body_as_sent
              (fresh_world
                 [respond_json 200 "OK" (PList [poll_record 1; poll_record 2])])
              _ (PList [poll_record 1; poll_record 2]) eq_refl) as [R L].
  - unfold status_2xx. cbn. lia.
  - reflexivity.
  - split; [ exact R | apply L; reflexivity ].
Defined.

(** C10: a call of [get_polls] that leaves its arguments out asks for
    [skip=0] and [limit=10]; an argument that is given is kept. *)
Theorem get_polls_default_page (w : World) :
  sent (snd (get_polls_call None None w))
  = (sent w ++ [ {| method := GET;
                    url := BASE_URL (globals w) ++ "/polls?skip=0&limit=10";
                    headers := []; json := None; data := None |} ])%list
  /\ (forall skip : Z,
         get_polls_call (Some skip) None w = get_polls skip 10 w)
  /\ (forall limit : Z,
         get_polls_call None (Some limit) w = get_polls 0 limit w)
  /\ (forall skip limit : Z,
         get_polls_call (Some skip) (Some limit) w = get_polls skip limit w).
Proof.
  split; [ | split; [ | split ]; intros; reflexivity ].
  unfold get_polls_call. rewrite get_polls_run. reflexivity.
Qed.

(** ** One request per call (C7) *)



(** ** No client-side state (C8) *)

Lemma same_operation_results (c1 c2 : Call) (w1 w2 : World) :
  same_operation c1 c2 = true ->
  outcome c1 w1 = outcome c2 w2 ->
  fst (invoke c1 w1) = fst (invoke c2 w2)
  /\ exists lines : list string,
       stdout (snd (invoke c1 w1)) = (stdout w1 ++ lines)%list
       /\ stdout (snd (invoke c2 w2)) = (stdout w2 ++ lines)%list.
Proof.
  intros Hop Hout.
  destruct c1, c2; try discriminate Hop; cbn [invoke].
  - rewrite !register_user_run. cbv zeta. cbn [fst snd]. rewrite Hout.
    split; [ reflexivity | eexists; split; reflexivity ].
  - rewrite !login_user_run. cbv zeta. cbn [fst snd]. rewrite Hout.
    split; [ | eexists; split; reflexivity ].
    destruct (fst (settle "during login" _)); [ apply py_get_world | reflexivity ].
  - rewrite !create_poll_run. cbv zeta. cbn [fst snd]. rewrite Hout.
    split; [ reflexivity | eexists; split; reflexivity ].
  - rewrite !get_polls_run. cbv zeta. cbn [fst snd]. rewrite Hout.
    split; [ reflexivity | eexists; split; reflexivity ].
Qed.

Lemma same_operation_refl (c : Call) : same_operation c c = true.
Proof. destruct c; reflexivity. Qed.

(** C8: no operation changes the module's bindings (nor the network's
    behaviour); its result and the lines it prints are fixed by which
    operation it is and by the outcome of its own request, so that the
    arguments reach nothing but the request; and a call made after
    another call makes the request its own arguments give and, when the
    service answers it the same, returns what it would have returned
    alone. *)
Theorem calls_keep_no_state :
  (forall (c : Call) (w : World),
      globals (snd (invoke c w)) = globals w
      /\ network (snd (invoke c w)) = network w)
  /\ (forall (c1 c2 : Call) (w1 w2 : World),
         same_operation c1 c2 = true ->
         outcome c1 w1 = outcome c2 w2 ->
         fst (invoke c1 w1) = fst (invoke c2 w2)
         /\ exists lines : list string,
              stdout (snd (invoke c1 w1)) = (stdout w1 ++ lines)%list
              /\ stdout (snd (invoke c2 w2)) = (stdout w2 ++ lines)%list)
  /\ (forall (c c' : Call) (w : World),
         sent (snd (invoke c (snd (invoke c' w))))
         = (sent w ++ [spec_request (BASE_URL (globals w)) c';
                       spec_request (BASE_URL (globals w)) c])%list
         /\ (outcome c (snd (invoke c' w)) = outcome c w ->
             fst (invoke c (snd (invoke c' w))) = fst (invoke c w))).
Proof.
  split; [ | split ].
  - intros c w. destruct (invoke_world c w) as [during E].
    rewrite E. split; reflexivity.
  - exact same_operation_results.
  - intros c c' w. split.
    + destruct (invoke_world c (snd (invoke c' w))) as [d E]. rewrite E.
      destruct (invoke_world c' w) as [d' E']. rewrite E'.
      cbn. rewrite <- app_assoc. reflexivity.
    + intros Hout.
      apply (same_operation_results c c _ _ (same_operation_refl c) Hout).
Qed.

Lemma calls_keep_no_state_witness :
  let polls := PList [poll_record 1] in
  let w := fresh_world [respond_json 200 "OK" polls;
                        respond_json 200 "OK" polls] in
  let first := Register "alice" "secret" in
  let other := Register "bob" "hunter2" in
  let c := GetPolls 0 5 in
  (fst (invoke first w) = fst (invoke other (snd (invoke c w))))
  /\ fst (invoke c (snd (invoke first w))) = fst (invoke c w).
Proof.
  cbv zeta. split.
  - apply (proj1 (proj2 calls_keep_no_state)); reflexivity.
  - apply (proj2 (proj2 calls_keep_no_state)). reflexivity.
Defined.

(** ** A login response without the token (C9) *)

(** When the 2xx body is a JSON object that lacks [access_token],
    [login_user] returns [None]. *)
Lemma login_user_object_without_token (username password : string)
    (w : World) (r : Response) (fields : list (string * PyVal)) :
  outcome (Login username password) w = Completed r ->
  status_2xx r -> json_body r = Some (PDict fields) ->
  lookup "access_token" fields = None ->
  fst (login_user username password w) = inr PNone.
Proof.
  intros Hnet H2 Hj Hf.
  rewrite login_user_run. cbv zeta. cbn [fst]. rewrite Hnet.
  rewrite (settle_success _ r _ H2 Hj). cbn. rewrite Hf. reflexivity.
Qed.

(** C9 does not hold of the code: a 2xx login response whose JSON body is
    an array has no [access_token] field, and [login_user] does not
    return [None] on it; the [AttributeError] of [.get] leaves the
    function, no handler of which catches it. *)
Lemma login_user_array_body_raises :
  let w := fresh_world [respond_json 200 "OK" (PList [])] in
  (exists r : Response,
      outcome (Login "alice" "secret") w = Completed r /\ status_2xx r
      /\ json_body r = Some (PList []))
  /\ fst (login_user "alice" "secret" w)
     = inl {| exc_class := AttributeError;
              exc_str := "'list' object has no attribute 'get'";
              exc_response := None |}
  /\ fst (login_user "alice" "secret" w) <> inr PNone.
Proof.
  cbv zeta. split; [ | split ].
  - eexists. split; [ reflexivity | ].
    split; [ unfold status_2xx; cbn; lia | reflexivity ].
  - vm_compute. reflexivity.
  - vm_compute. discriminate.
Qed.

(** ** Further behaviour of the four operations *)

Lemma invoke_world_during (c : Call) (w : World) :
  snd (invoke c w) =
  logged (snd (settle (during c) (outcome c w)))
         (issued (spec_request (BASE_URL (globals w)) c) w).
Proof.
  destruct c; cbn [invoke during].
  - rewrite register_user_run. reflexivity.
  - rewrite login_user_run. reflexivity.
  - rewrite create_poll_run. reflexivity.
  - rewrite get_polls_run. reflexivity.
Qed.

Lemma invoke_result (c : Call) (w : World) :
  fst (invoke c w) =
  match fst (settle (during c) (outcome c w)), c with
  | Some body, Login _ _ => fst (py_get body "access_token" w)
  | Some body, _ => inr body
  | None, _ => inr PNone
  end.
Proof.
  destruct c; cbn [invoke during].
  - rewrite register_user_run. cbv zeta. cbn [fst].
    destruct (fst (settle _ _)); reflexivity.
  - rewrite login_user_run. cbv zeta. cbn [fst].
    destruct (fst (settle _ _)); reflexivity.
  - rewrite create_poll_run. cbv zeta. cbn [fst].
    destruct (fst (settle _ _)); reflexivity.
  - rewrite get_polls_run. cbv zeta. cbn [fst].
    destruct (fst (settle _ _)); reflexivity.
Qed.

(** X1: when the request completes with a status from 400 to 599, the
    operation prints exactly two lines, the message of the [HTTPError]
    and then the text of the response body; when the request fails before
    completion it prints exactly one line, with the text of the
    exception.  Earlier output is kept. *)
Theorem failure_diagnostics (c : Call) (w : World) :
  (forall r : Response,
      outcome c w = Completed r -> 400 <= status_code r < 600 ->
      stdout (snd (invoke c w))
      = (stdout w
           ++ [("HTTP error occurred " ++ during c ++ ": "
                  ++ http_error_msg r)%string;
               ("Response content: " ++ text r)%string])%list)
  /\ (forall (kind : TransportError) (msg : string),
         outcome c w = Failed kind msg ->
         stdout (snd (invoke c w))
         = (stdout w
              ++ [("An unexpected error occurred " ++ during c ++ ": "
                     ++ msg)%string])%list).
Proof.
  rewrite invoke_world_during. split.
  - intros r Ho Hs. rewrite Ho. cbn [settle].
    rewrite (proj2 (is_http_error_spec r) Hs). reflexivity.
  - intros kind msg Ho. rewrite Ho. reflexivity.
Qed.

Lemma failure_diagnostics_witness :
  let c := Register "alice" "secret" in
  let w := fresh_world [respond_json 400 "Bad Request" conflict_body] in
  stdout (snd (invoke c w))
  = ["HTTP error occurred during registration: "
       ++ "400 Client Error: Bad Request for url: "
       ++ "http://localhost:8000/register";
     "Response content: " ++ dumps conflict_body]
  /\ stdout (snd (invoke (GetPolls 0 5) (fresh_world [])))
     = ["An unexpected error occurred while fetching polls: "
          ++ "Connection refused: "
          ++ "http://localhost:8000/polls?skip=0&limit=5"].
Proof.
  cbv zeta. split.
  - rewrite (proj1 (failure_diagnostics (Register "alice" "secret")
                      (fresh_world
                         [respond_json 400 "Bad Request" conflict_body]))
               _ eq_refl).
    + reflexivity.
    + cbn. lia.
  - rewrite (proj2 (failure_diagnostics (GetPolls 0 5) (fresh_world []))
               _ _ eq_refl).
    reflexivity.
Defined.

(** X2: an operation that gets a response outside the error statuses
    with a JSON body prints nothing. *)
Theorem success_is_silent (c : Call) (w : World) (r : Response) (body : PyVal) :
  outcome c w = Completed r ->
  status_code r < 400 \/ 600 <= status_code r ->
  json_body r = Some body ->
  stdout (snd (invoke c w)) = stdout w.
Proof.
  intros Ho Hs Hj. rewrite invoke_world_during, Ho. cbn [settle].
  replace (is_http_error r) with false by (unfold is_http_error; lia).
  rewrite Hj. cbn. apply app_nil_r.
Qed.

Lemma success_is_silent_witness :
  stdout (snd (invoke (Login "alice" "secret")
                 (fresh_world [respond_json 200 "OK" token_body])))
  = [].
Proof.
  eapply (success_is_silent (Login "alice" "secret")
            (fresh_world [respond_json 200 "OK" token_body])).
  - reflexivity.
  - left. cbn. lia.
  - reflexivity.
Defined.

Lemma settle_passed (during : string) (r : Response) :
  status_code r < 400 \/ 600 <= status_code r ->
  settle during (Completed r)
  = match json_body r with
    | Some v => (Some v, [])
    | None => (None, ["An unexpected error occurred " ++ during
                      ++ ": Expecting value: line 1 column 1 (char 0)"])
    end.
Proof.
  intros Hs. cbn [settle].
  replace (is_http_error r) with false by (unfold is_http_error; lia).
  reflexivity.
Qed.

(** X3: only the statuses from 400 to 599 count as a failure.  A
    response of any other status (such as 300, or beyond 599) with a
    JSON body is taken as a success: [register_user], [create_poll] and
    [get_polls] return the decoded body, and [login_user], given an
    object, returns its [access_token] field or [None]. *)
Theorem status_gate (c : Call) (w : World) (r : Response) (body : PyVal) :
  outcome c w = Completed r ->
  status_code r < 400 \/ 600 <= status_code r ->
  json_body r = Some body ->
  match c with
  | Login _ _ =>
      forall fields : list (string * PyVal),
        body = PDict fields ->
        fst (invoke c w) = inr (or_None (lookup "access_token" fields))
  | _ => fst (invoke c w) = inr body
  end.
Proof.
  intros Ho Hs Hj.
  pose proof (invoke_result c w) as R.
  rewrite Ho, (settle_passed _ r Hs), Hj in R. cbn [fst] in R.
  destruct c; try exact R.
  intros fields ->. exact R.
Qed.

Lemma status_gate_witness :
  fst (invoke (CreatePoll "Best colour?" ["Red"; "Blue"] "tok123")
         (fresh_world [respond_json 300 "Multiple Choices" (poll_record 7)]))
  = inr (poll_record 7)
  /\ fst (invoke (Login "alice" "secret")
            (fresh_world [respond_json 300 "Multiple Choices" token_body]))
     = inr (PStr "tok123").
Proof.
  split.
  - refine (status_gate
              (CreatePoll "Best colour?" ["Red"; "Blue"] "tok123")
              (fresh_world
                 [respond_json 300 "Multiple Choices" (poll_record 7)])
              _ (poll_record 7) eq_refl _ eq_refl).
    left. cbn. lia.
  - refine (status_gate (Login "alice" "secret")
              (fresh_world [respond_json 300 "Multiple Choices" token_body])
              _ token_body eq_refl _ eq_refl _ eq_refl).
    left. cbn. lia.
Defined.

(** X4: when the response passes the status test but its body is not
    JSON, the [JSONDecodeError] of [response.json()] is absorbed like a
    transport failure: each of the four operations returns [None] and
    prints one line. *)
Theorem undecodable_body_returns_None (c : Call) (w : World) (r : Response) :
  outcome c w = Completed r ->
  status_code r < 400 \/ 600 <= status_code r ->
  json_body r = None ->
  fst (invoke c w) = inr PNone
  /\ exists line : string,
       stdout (snd (invoke c w)) = (stdout w ++ [line])%list.
Proof.
  intros Ho Hs Hj. split.
  - rewrite invoke_result, Ho, (settle_passed _ r Hs), Hj.
    destruct c; reflexivity.
  - rewrite invoke_world_during, Ho, (settle_passed _ r Hs), Hj.
    eexists. reflexivity.
Qed.

Lemma undecodable_body_returns_None_witness :
  let page (req : Request) :=
    Completed {| status_code := 200; reason := "OK";
                 response_url := url req; text := "<html>proxy</html>";
                 json_body := None |} in
  fst (invoke (Register "alice" "secret") (fresh_world [page])) = inr PNone.
Proof.
  cbv zeta.
  eapply (undecodable_body_returns_None (Register "alice" "secret")).
  - reflexivity.
  - left. cbn. lia.
  - reflexivity.
Defined.

(** X6: when the login response passes the status test and its JSON
    body is a value other than an object (an array, a string, a number,
    true, false or null), [login_user] does not return: the
    [AttributeError] of [.get] on that value leaves the function, and
    no [except] clause has printed anything. *)
Theorem login_user_raises_on_non_object_body (username password : string)
    (w : World) (r : Response) (body : PyVal) :
  outcome (Login username password) w = Completed r ->
  status_code r < 400 \/ 600 <= status_code r ->
  json_body r = Some body ->
  (forall fields : list (string * PyVal), body <> PDict fields) ->
  fst (login_user username password w)
  = inl {| exc_class := AttributeError;
           exc_str := "'" ++ type_name body
                      ++ "' object has no attribute 'get'";
           exc_response := None |}
  /\ stdout (snd (login_user username password w)) = stdout w.
Proof.
  intros Ho Hs Hj Hno.
  rewrite login_user_run. cbv zeta. cbn [fst snd].
  rewrite Ho, (settle_passed _ r Hs), Hj. cbn [fst snd]. split.
  - destruct body; try reflexivity.
    exfalso. exact (Hno fields eq_refl).
  - cbn. apply app_nil_r.
Qed.

Lemma login_user_raises_on_non_object_body_witness :
  let w := fresh_world [respond_json 200 "OK" (PStr "welcome")] in
  fst (login_user "alice" "secret" w)
  = inl {| exc_class := AttributeError;
           exc_str := "'str' object has no attribute 'get'";
           exc_response := None |}.
Proof.
  cbv zeta.
  eapply (login_user_raises_on_non_object_body "alice" "secret"
            (fresh_world [respond_json 200 "OK" (PStr "welcome")])
            _ (PStr "welcome")).
  - reflexivity.
  - left. cbn. lia.
  - reflexivity.
  - intros fields. discriminate.
Defined.

(** X7: when the login response passes the status test and its JSON
    body is an object in which [access_token] is missing, or is [null],
    [login_user] returns [None], as it does on a failure. *)
Theorem login_user_without_token_returns_None (username password : string)
    (w : World) (r : Response) (fields : list (string * PyVal)) :
  outcome (Login username password) w = Completed r ->
  status_code r < 400 \/ 600 <= status_code r ->
  json_body r = Some (PDict fields) ->
  lookup "access_token" fields = None
  \/ lookup "access_token" fields = Some PNone ->
  fst (login_user username password w) = inr PNone.
Proof.
  intros Ho Hs Hj Hf.
  rewrite login_user_run. cbv zeta. cbn [fst].
  rewrite Ho, (settle_passed _ r Hs), Hj. cbn.
  destruct Hf as [-> | ->]; reflexivity.
Qed.

Lemma login_user_without_token_returns_None_witness :
  fst (login_user "alice" "secret"
         (fresh_world
            [respond_json 200 "OK" (PDict [("token_type", PStr "bearer")])]))
  = inr PNone
  /\ fst (login_user "alice" "secret"
            (fresh_world
               [respond_json 200 "OK" (PDict [("access_token", PNone)])]))
     = inr PNone.
Proof.
  split.
  - eapply (login_user_without_token_returns_None "alice" "secret"
              (fresh_world
                 [respond_json 200 "OK"
                    (PDict [("token_type", PStr "bearer")])])).
    + reflexivity.
    + left. cbn. lia.
    + reflexivity.
    + left. reflexivity.
  - eapply (login_user_without_token_returns_None "alice" "secret"
              (fresh_world
                 [respond_json 200 "OK" (PDict [("access_token", PNone)])])).
    + reflexivity.
    + left. cbn. lia.
    + reflexivity.
    + right. reflexivity.
Defined.

(** ** The self-test script, step by step *)

Lemma same_view_refl (w : World) : same_view w w.
Proof. repeat split. Qed.

Lemma outcome_same_view (c : Call) (w1 w2 : World) :
  same_view w1 w2 -> outcome c w1 = outcome c w2.
Proof.
  intros (Hg & Hn & Hs). unfold outcome. rewrite Hg, Hn, Hs. reflexivity.
Qed.

Lemma invoke_same_view (c : Call) (w1 w2 : World) :
  same_view w1 w2 -> fst (invoke c w1) = fst (invoke c w2).
Proof.
  intros H.
  apply (same_operation_results c c w1 w2 (same_operation_refl c)
           (outcome_same_view c w1 w2 H)).
Qed.

Lemma advance_nil (w : World) : same_view (advance [] w) w.
Proof. repeat split. cbn. apply app_nil_r. Qed.

Lemma tracks_same_view {A : Type} (c : Script A) (w0 w0' : World)
    (res : Uncaught + A) (l : list Request) :
  same_view w0' w0 -> tracks c w0 res l -> tracks c w0' res l.
Proof.
  intros (Hg & Hn & Hs) T w (Hg1 & Hn1 & Hs1).
  destruct (T w) as [R (Hg2 & Hn2 & Hs2)].
  - repeat split; congruence.
  - split; [ exact R | ].
    repeat split; cbn in *; congruence.
Qed.

Lemma tracks_say (line : string) (w0 : World) :
  tracks (say line) w0 (inr tt) [].
Proof.
  intros w (Hg & Hn & Hs). split; [ reflexivity | ].
  repeat split; cbn; try assumption.
  rewrite app_nil_r. exact Hs.
Qed.

Lemma tracks_bind {A B : Type} (c : Script A) (k : A -> Script B)
    (w0 : World) (a : A) (res : Uncaught + B) (l1 l2 : list Request) :
  tracks c w0 (inr a) l1 ->
  tracks (k a) (advance l1 w0) res l2 ->
  tracks (bind c k) w0 res (l1 ++ l2).
Proof.
  intros Hc Hk w Hw. destruct (Hc w Hw) as [R V].
  cbn [bind Monad_Script]. destruct (c w) as [[e|a'] w1]; cbn in R, V.
  - discriminate R.
  - injection R as ->. destruct (Hk w1 V) as [R2 V2].
    split; [ exact R2 | ].
    destruct V2 as (Hg & Hn & Hs). repeat split; cbn in *; try assumption.
    rewrite Hs. symmetry. apply app_assoc.
Qed.

Lemma tracks_raise {A B : Type} (c : Script A) (k : A -> Script B)
    (w0 : World) (e : Uncaught) (l : list Request) :
  tracks c w0 (inl e) l -> tracks (bind c k) w0 (inl e) l.
Proof.
  intros Hc w Hw. destruct (Hc w Hw) as [R V].
  cbn [bind Monad_Script]. destruct (c w) as [[e'|a] w1]; cbn in R, V.
  - injection R as ->. split; [ reflexivity | exact V ].
  - discriminate R.
Qed.

Lemma tracks_invoke (c : Call) (w0 : World) :
  tracks (client (invoke c)) w0 (lift_exn (fst (invoke c w0)))
         [spec_request (BASE_URL (globals w0)) c].
Proof.
  intros w Hw. unfold client.
  pose proof (invoke_same_view c w w0 Hw) as R.
  pose proof (invoke_world_during c w) as V.
  destruct (invoke c w) as [[e|a] w1]; cbn [fst snd] in *;
    rewrite <- R; (split; [ reflexivity | ]);
    subst w1; destruct Hw as (Hg & Hn & Hs);
    repeat split; cbn; try assumption; rewrite Hg, Hs; reflexivity.
Qed.

(** A call that cannot raise, with the value it returns left open. *)
Lemma tracks_invoke_returns (c : Call) (w0 : World) :
  (forall username password, c <> Login username password) ->
  exists v : PyVal,
    fst (invoke c w0) = inr v
    /\ tracks (client (invoke c)) w0 (inr v)
              [spec_request (BASE_URL (globals w0)) c].
Proof.
  intros Hc. pose proof (tracks_invoke c w0) as T.
  pose proof (invoke_result c w0) as R.
  destruct c; try (exfalso; eapply Hc; reflexivity);
    destruct (fst (settle _ _)) in R; rewrite R in T |- *;
    eexists; (split; [ reflexivity | exact T ]).
Qed.

Lemma tracks_report (b : bool) (l1 l2 l3 : string) (w0 : World) :
  tracks (if b then say l1 ;; say l2 else say l3) w0 (inr tt) [].
Proof.
  destruct b; [ | apply tracks_say ].
  apply (tracks_bind (say l1) (fun _ => say l2) w0 tt (inr tt) [] []);
    apply tracks_say.
Qed.

Lemma tracks_for_each_say (f : PyVal -> string) (items : list PyVal)
    (w0 : World) :
  tracks (for_each items (fun poll => say (f poll))) w0 (inr tt) [].
Proof.
  induction items as [|x rest IH]; cbn [for_each].
  - intros w Hw. split; [ reflexivity | ].
    destruct Hw as (Hg & Hn & Hs). repeat split; cbn; try assumption.
    rewrite app_nil_r. exact Hs.
  - apply (tracks_bind (say (f x)) _ w0 tt (inr tt) [] []).
    + apply tracks_say.
    + apply (tracks_same_view _ w0 _ _ _ (advance_nil w0)). exact IH.
Qed.

Lemma tracks_quiet {A B : Type} (c : Script A) (k : A -> Script B)
    (w0 : World) (a : A) (res : Uncaught + B) (l : list Request) :
  tracks c w0 (inr a) [] -> tracks (k a) w0 res l -> tracks (bind c k) w0 res l.
Proof.
  intros Hc Hk.
  apply (tracks_bind c k w0 a res [] l Hc).
  apply (tracks_same_view _ w0 _ _ _ (advance_nil w0)). exact Hk.
Qed.

Lemma tracks_then {A B : Type} (c : Script A) (k : A -> Script B)
    (w0 : World) (a : A) (res : Uncaught + B) (req : Request)
    (l : list Request) :
  tracks c w0 (inr a) [req] ->
  tracks (k a) (advance [req] w0) res l ->
  tracks (bind c k) w0 res (req :: l).
Proof. intros Hc Hk. exact (tracks_bind c k w0 a res [req] l Hc Hk). Qed.

Lemma tracks_iterate (B : Builtins) (polls : PyVal) (w0 : World) :
  tracks (iterate B polls) w0
    (match polls with
     | PList items => inr items
     | PDict fields => inr (map (fun kv => PStr (fst kv)) fields)
     | PStr s => inr (map PStr (characters B s))
     | _ => inl (TypeError ("'" ++ type_name polls
                             ++ "' object is not iterable"))
     end) [].
Proof.
  intros w (Hg & Hn & Hs).
  destruct polls; (split; [ reflexivity | ]);
    repeat split; cbn; try assumption; rewrite app_nil_r; exact Hs.
Qed.

(** The last block of the script: the report on [polls]. *)
Lemma tracks_listing_report (B : Builtins) (polls : PyVal) (w0 : World) :
  tracks (if truthy B polls then
            say "Polls fetched successfully:" ;;
            items <- iterate B polls ;;
            for_each items (fun poll => say (py_str B poll))
          else say "Failed to fetch polls.")
         w0 (listing_result B polls) [].
Proof.
  unfold listing_result.
  destruct (truthy B polls); [ | apply tracks_say ].
  eapply tracks_quiet; [ apply tracks_say | ].
  pose proof (tracks_iterate B polls w0) as T.
  destruct polls;
    try (apply tracks_raise; exact T);
    (eapply tracks_quiet; [ exact T | apply tracks_for_each_say ]).
Qed.

Lemma no_login_create (q : string) (o : list string) (t : string) :
  forall username password, CreatePoll q o t <> Login username password.
Proof. discriminate. Qed.

Lemma no_login_register (u p : string) :
  forall username password, Register u p <> Login username password.
Proof. discriminate. Qed.

Lemma no_login_listing (s l : Z) :
  forall username password, GetPolls s l <> Login username password.
Proof. discriminate. Qed.

Ltac quiet_step :=
  eapply tracks_quiet;
  [ first [ apply tracks_say | apply tracks_report ] | ].

Ltac call_step c w H v E :=
  let T := fresh "T" in
  destruct (tracks_invoke_returns c w H) as (v & E & T);
  eapply (tracks_then _ _ _ v); [ exact T | ]; clear T.

Ltac same_view_by_lists :=
  repeat split; cbn; rewrite <- ?app_assoc; reflexivity.

(** The whole script: what it comes to and which calls it makes. *)
Lemma main_tracks (B : Builtins) (w0 : World) :
  let base := BASE_URL (globals w0) in
  let came :=
    fst (invoke test_login
           (advance (map (spec_request base) [test_register; test_register])
                    w0)) in
  tracks (main B) w0
    (match came with
     | inl e => inl (FromClient e)
     | inr _ =>
         match fst (invoke listing
                      (advance
                         (removelast
                            (map (spec_request base) (script_calls B came)))
                         w0)) with
         | inl e => inl (FromClient e)
         | inr polls => listing_result B polls
         end
     end)
    (map (spec_request base) (script_calls B came)).
Proof.
  intros base came.
  set (w1 := advance [spec_request base test_register] w0).
  set (w2 := advance [spec_request base test_register] w1).
  assert (Hcame : came = fst (invoke test_login w2)).
  { apply invoke_same_view. same_view_by_lists. }
  unfold main. cbv zeta.
  quiet_step. quiet_step.
  call_step test_register w0
            (no_login_register "testuser123" "testpassword123") v1 E1.
  quiet_step. quiet_step.
  call_step test_register w1
            (no_login_register "testuser123" "testpassword123") v2 E2.
  quiet_step. quiet_step. quiet_step.
  pose proof (tracks_invoke test_login w2) as TL.
  rewrite <- Hcame in TL.
  destruct came as [e|token] eqn:Ecame.
  - apply tracks_raise. exact TL.
  - eapply (tracks_then _ _ _ token); [ exact TL | ].
    set (w3 := advance [spec_request base test_login] w2).
    quiet_step. quiet_step.
    unfold script_calls.
    destruct (truthy B token) eqn:Etok.
    + set (cp1 := first_poll (py_str B token)).
      set (cp2 := second_poll (py_str B token)).
      apply (tracks_bind _ _ w3 tt _
               [spec_request base cp1; spec_request base cp2]
               [spec_request base unauthorized_poll;
                spec_request base listing]).
      * quiet_step.
        call_step cp1 w3
                  (no_login_create "What is your favorite color?"
                     ["Red"; "Blue"; "Green"] (py_str B token)) v3 E3.
        quiet_step. quiet_step.
        call_step cp2 (advance [spec_request base cp1] w3)
                  (no_login_create "Best programming language?"
                     ["Python"; "JavaScript"; "Java"] (py_str B token)) v4 E4.
        apply tracks_report.
      * set (w5 := advance [spec_request base cp1; spec_request base cp2] w3).
        quiet_step.
        call_step unauthorized_poll w5
                  (no_login_create "This should fail"
                     ["Option A"; "Option B"] "invalid_token") v5 E5.
        quiet_step. quiet_step. quiet_step.
        set (w6 := advance [spec_request base unauthorized_poll] w5).
        call_step listing w6 (no_login_listing 0 5) polls E6.
        replace (fst (invoke listing _)) with (@inr Exn PyVal polls).
        { apply tracks_listing_report. }
        rewrite <- E6. apply invoke_same_view. same_view_by_lists.
    + quiet_step. quiet_step.
      call_step unauthorized_poll w3
                (no_login_create "This should fail"
                   ["Option A"; "Option B"] "invalid_token") v5 E5.
      quiet_step. quiet_step. quiet_step.
      set (w6 := advance [spec_request base unauthorized_poll] w3).
      call_step listing w6 (no_login_listing 0 5) polls E6.
      replace (fst (invoke listing _)) with (@inr Exn PyVal polls).
      { apply tracks_listing_report. }
      rewrite <- E6. apply invoke_same_view. same_view_by_lists.
Qed.

(** ** What a run of the script does *)

(** X8: a run of the script that ends normally has made these library
    calls and no others, in this order: the registration of the same
    user twice, the login, then, only when the token [login_user]
    returned tests true, two polls with the text of the token as bearer
    credential, then one poll with the token [invalid_token] and the
    listing with [skip=0], [limit=5]: five calls or seven. *)
Theorem script_complete_run_calls (B : Builtins) (w : World) :
  let base := BASE_URL (globals w) in
  let came :=
    fst (login_user "testuser123" "testpassword123"
           (advance (map (spec_request base) [test_register; test_register])
                    w)) in
  fst (main B w) = inr tt ->
  exists token : PyVal,
    came = inr token
    /\ sent (snd (main B w))
       = (sent w
            ++ map (spec_request base)
                   ([test_register; test_register; test_login]
                      ++ (if truthy B token
                          then [first_poll (py_str B token);
                                second_poll (py_str B token)]
                          else [])
                      ++ [unauthorized_poll; listing]))%list.
Proof.
  cbv zeta. intros Hend.
  destruct (main_tracks B w w (same_view_refl w)) as [R (_ & _ & Hs)].
  cbv zeta in R, Hs. cbn [invoke test_login] in R, Hs.
  destruct (fst (login_user "testuser123" "testpassword123" _))
    as [e|token] eqn:Hcame.
  - rewrite Hend in R. discriminate R.
  - exists token. split; [ reflexivity | exact Hs ].
Qed.

Lemma script_complete_run_calls_witness :
  let w := fresh_world
             [respond_json 200 "OK" alice_record;
              respond_json 400 "Bad Request" conflict_body;
              respond_json 200 "OK"
                (PDict [("token_type", PStr "bearer");
                        ("access_token", PStr "tok123")]);
              respond_json 200 "OK" (poll_record 1);
              respond_json 200 "OK" (poll_record 2);
              respond_json 401 "Unauthorized" conflict_body;
              respond_json 200 "OK" (PList [poll_record 1; poll_record 2])] in
  sent (snd (main sample_builtins w))
  = map (spec_request "http://localhost:8000")
        [test_register; test_register; test_login;
         first_poll "tok123"; second_poll "tok123";
         unauthorized_poll; listing].
Proof.
  cbv zeta.
  match goal with
  | |- sent (snd (main _ ?w)) = _ =>
      destruct (script_complete_run_calls sample_builtins w)
        as (token & Hcame & Hs)
  end.
  - vm_compute. reflexivity.
  - vm_compute in Hcame. injection Hcame as <-.
    rewrite Hs. reflexivity.
Defined.

(** X9: an exception that leaves [login_user] ends the script: the
    script raises it, after the three requests made so far. *)
Theorem script_stops_when_login_raises (B : Builtins) (w : World) (e : Exn) :
  let base := BASE_URL (globals w) in
  fst (login_user "testuser123" "testpassword123"
         (advance (map (spec_request base) [test_register; test_register]) w))
  = inl e ->
  fst (main B w) = inl (FromClient e)
  /\ sent (snd (main B w))
     = (sent w ++ map (spec_request base)
                      [test_register; test_register; test_login])%list.
Proof.
  cbv zeta. intros Hcame.
  destruct (main_tracks B w w (same_view_refl w)) as [R (_ & _ & Hs)].
  cbv zeta in R, Hs. cbn [invoke test_login] in R, Hs.
  rewrite Hcame in R, Hs. split; [ exact R | exact Hs ].
Qed.

Lemma script_stops_when_login_raises_witness :
  let w := fresh_world [refuse; refuse; respond_json 200 "OK" (PList [])] in
  fst (main sample_builtins w)
  = inl (FromClient {| exc_class := AttributeError;
                       exc_str := "'list' object has no attribute 'get'";
                       exc_response := None |})
  /\ length (sent (snd (main sample_builtins w))) = 3%nat.
Proof.
  cbv zeta.
  destruct (script_stops_when_login_raises sample_builtins
              (fresh_world [refuse; refuse; respond_json 200 "OK" (PList [])])
              {| exc_class := AttributeError;
                 exc_str := "'list' object has no attribute 'get'";
                 exc_response := None |}) as [R S].
  - vm_compute. reflexivity.
  - split; [ exact R | ]. rewrite S. reflexivity.
Defined.

(** X10: a run of the script ends normally only if the value
    [get_polls] returned tests false or is a list, a dictionary or a
    string; on any other value that tests true (a number other than
    zero, or [true]) the [for] loop has nothing to iterate and the run
    ends in an exception. *)
Theorem script_complete_run_polls (B : Builtins) (w : World) :
  let base := BASE_URL (globals w) in
  let came :=
    fst (login_user "testuser123" "testpassword123"
           (advance (map (spec_request base) [test_register; test_register])
                    w)) in
  fst (main B w) = inr tt ->
  exists polls : PyVal,
    fst (get_polls 0 5
           (advance (removelast
                       (map (spec_request base) (script_calls B came)))
                    w))
    = inr polls
    /\ (truthy B polls = false
        \/ (exists items : list PyVal, polls = PList items)
        \/ (exists fields : list (string * PyVal), polls = PDict fields)
        \/ (exists s : string, polls = PStr s)).
Proof.
  cbv zeta. intros Hend.
  destruct (main_tracks B w w (same_view_refl w)) as [R _].
  cbv zeta in R. cbn [invoke test_login listing] in R.
  rewrite Hend in R.
  destruct (fst (login_user "testuser123" "testpassword123" _))
    as [e|token]; [ discriminate R | ].
  destruct (fst (get_polls 0 5 _)) as [e|polls]; [ discriminate R | ].
  exists polls. split; [ reflexivity | ].
  unfold listing_result in R.
  destruct (truthy B polls); [ | left; reflexivity ].
  right. destruct polls; try discriminate R.
  - right. right. eexists. reflexivity.
  - left. eexists. reflexivity.
  - right. left. eexists. reflexivity.
Qed.

Lemma script_complete_run_polls_witness :
  let w := fresh_world [refuse; refuse; refuse; refuse;
                        respond_json 200 "OK" (PList [poll_record 1])] in
  exists polls : PyVal,
    fst (get_polls 0 5
           (advance (map (spec_request "http://localhost:8000")
                         [test_register; test_register; test_login;
                          unauthorized_poll]) w))
    = inr polls
    /\ (truthy sample_builtins polls = false
        \/ (exists items : list PyVal, polls = PList items)
        \/ (exists fields : list (string * PyVal), polls = PDict fields)
        \/ (exists s : string, polls = PStr s)).
Proof.
  cbv zeta.
  apply (script_complete_run_polls sample_builtins
           (fresh_world [refuse; refuse; refuse; refuse;
                         respond_json 200 "OK" (PList [poll_record 1])])).
  vm_compute. reflexivity.
Defined.

(** ** The request carries the arguments *)

Lemma append_cancel_l (base x y : string) :
  base ++ x = base ++ y -> x = y.
Proof.
  induction base as [|c base IH]; cbn; intros H.
  - exact H.
  - injection H as H. exact (IH H).
Qed.

Lemma digits_without_ampersand (d : Decimal.uint) :
  occurs "&" (NilEmpty.string_of_uint d) = false.
Proof. induction d; cbn; try assumption; reflexivity. Qed.

Lemma str_of_int_without_ampersand (n : Z) :
  occurs "&" (str_of_int n) = false.
Proof.
  unfold str_of_int.
  destruct n as [|p|p]; cbn; try reflexivity;
    destruct (Pos.to_uint p) eqn:E; cbn;
    try reflexivity; apply digits_without_ampersand.
Qed.

Lemma split_at_ampersand (s1 s2 t1 t2 : string) :
  occurs "&" s1 = false -> occurs "&" s2 = false ->
  s1 ++ String "&" t1 = s2 ++ String "&" t2 ->
  s1 = s2 /\ t1 = t2.
Proof.
  revert s2. induction s1 as [|a s1 IH]; intros [|b s2]; cbn;
    intros H1 H2 H.
  - injection H as H. split; [ reflexivity | exact H ].
  - injection H as Hb _. subst b. cbn in H2. discriminate H2.
  - injection H as Ha _. subst a. cbn in H1. discriminate H1.
  - injection H as Hab H. subst b.
    apply orb_false_iff in H1 as [_ H1].
    apply orb_false_iff in H2 as [_ H2].
    destruct (IH s2 H1 H2 H) as [-> ->]. split; reflexivity.
Qed.

Lemma str_of_int_inj (a b : Z) : str_of_int a = str_of_int b -> a = b.
Proof.
  unfold str_of_int. intros H.
  assert (N : forall z : Z,
             NilZero.int_of_string (NilZero.string_of_int (Z.to_int z))
             = Some (Z.to_int z)).
  { intros z. apply NilZero.isi; destruct z; cbn; try discriminate;
      intros E; injection E as E; exact (Unsigned.to_uint_nonnil _ E). }
  pose proof (N a) as Na. rewrite H, N in Na.
  injection Na as Na. symmetry. exact (DecimalZ.to_int_inj _ _ Na).
Qed.

Lemma map_PStr_inj (l1 l2 : list string) :
  map PStr l1 = map PStr l2 -> l1 = l2.
Proof.
  revert l2. induction l1 as [|x l1 IH]; intros [|y l2] H;
    try discriminate H; [ reflexivity | ].
  cbn in H. injection H as Hx H. rewrite Hx, (IH l2 H). reflexivity.
Qed.

Lemma spec_request_inj (base : string) (c1 c2 : Call) :
  spec_request base c1 = spec_request base c2 -> c1 = c2.
Proof.
  destruct c1, c2; cbn [spec_request]; intros H; try discriminate H.
  - pose proof (f_equal json H) as Hj. cbn in Hj. congruence.
  - pose proof (f_equal data H) as Hd. cbn in Hd. congruence.
  - pose proof (f_equal json H) as Hj. pose proof (f_equal headers H) as Hh.
    cbn in Hj, Hh. injection Hj as Hq Ho. injection Hh as Ht.
    apply map_PStr_inj in Ho. congruence.
  - pose proof (f_equal url H) as Hu. cbn [url] in Hu.
    apply append_cancel_l in Hu.
    apply (append_cancel_l "/polls?skip=") in Hu.
    apply (split_at_ampersand (str_of_int skip) (str_of_int skip0)
             ("limit=" ++ str_of_int limit) ("limit=" ++ str_of_int limit0))
      in Hu; try apply str_of_int_without_ampersand.
    destruct Hu as [Hs Hl].
    apply (append_cancel_l "limit=") in Hl.
    apply str_of_int_inj in Hs, Hl. congruence.
Qed.

(** X11: the request an operation makes determines the operation and
    all of its arguments: two invocations under the same base address
    that hand the same request to the library are the same call.  In
    particular the address of [get_polls] gives back [skip] and
    [limit]. *)
Theorem request_determines_call (c1 c2 : Call) (w1 w2 : World)
    (req : Request) :
  BASE_URL (globals w1) = BASE_URL (globals w2) ->
  sent (snd (invoke c1 w1)) = (sent w1 ++ [req])%list ->
  sent (snd (invoke c2 w2)) = (sent w2 ++ [req])%list ->
  c1 = c2.
Proof.
  intros Hb H1 H2.
  rewrite invoke_world_during in H1, H2. cbn in H1, H2.
  apply app_inv_head in H1, H2. injection H1 as H1. injection H2 as H2.
  rewrite Hb in H1. rewrite <- H2 in H1.
  exact (spec_request_inj _ c1 c2 H1).
Qed.

Lemma request_determines_call_witness :
  let c := GetPolls 20 10 in
  let w1 := fresh_world [respond_json 200 "OK" (PList [])] in
  let w2 := fresh_world [] in
  sent (snd (invoke c w1)) = sent (snd (invoke c w2)) /\ c = c.
Proof.
  cbv zeta. split; [ reflexivity | ].
  apply (request_determines_call (GetPolls 20 10) (GetPolls 20 10)
           (fresh_world [respond_json 200 "OK" (PList [])]) (fresh_world [])
           {| method := GET;
              url := "http://localhost:8000/polls?skip=20&limit=10";
              headers := []; json := None; data := None |});
    reflexivity.
Defined.
